(** * Concordia AI: the LLM conversation gateway ([ai/llm.py])

    A shallow embedding of [get_model], [Stub], [OpenAI._count_token],
    [OpenAI._truncate_history] and [OpenAI.make_response].

    Python values that the code manipulates are modelled as the code has
    them: exceptions are explicit results, list objects live in a store and
    are addressed by reference (so that aliasing and in-place mutation are
    visible), generators are suspended computations that leave a trace of
    observable events when they are consumed. *)

From Stdlib Require Import ZArith Lia.
From stdpp Require Import base list strings.

Local Open Scope Z_scope.

(** ** Exceptions and fallible expressions *)

Inductive exn : Type :=
  | ValueError (msg : string)
  | TypeError (msg : string)
  | IndexError (msg : string)
  | NotImplementedError
  | ProviderError (msg : string)
  | OpenAIError (msg : string).

Inductive result (A : Type) : Type :=
  | Ok (a : A)
  | Raise (e : exn).
Arguments Ok {A} a.
Arguments Raise {A} e.

Definition rbind {A B} (r : result A) (k : A -> result B) : result B :=
  match r with
  | Ok a => k a
  | Raise e => Raise e
  end.

Declare Scope result_scope.
Delimit Scope result_scope with result.
Notation "'try' x <- r ; k" := (rbind r (fun x => k))
  (at level 10, x name, r at level 100, k at level 200) : result_scope.

Definition returns {A} (r : result A) : Prop := exists a, r = Ok a.
Definition raises {A} (r : result A) : Prop := exists e, r = Raise e.

(** ** [Message] *)

Inductive Role : Type := system | user | assistant.

Record Message : Type := mkMessage { role : Role; content : string }.

(** ** Django settings

    [conf.settings] is read with [getattr] and [hasattr]; an attribute is
    either absent or has a value. *)

Record Settings : Type := mkSettings {
  LLM_MODEL : option string;
  OPENAI_MAX_TOKENS : option Z;
  OPENAI_MODEL : option string;
  OPENAI_KEY : option string
}.

(** [getattr(obj, name, default)] *)
Definition getattr {A} (attr : option A) (default : A) : A :=
  match attr with
  | Some v => v
  | None => default
  end.

(** ** The tokenizer library

    [tiktoken] is an external library.  What the code uses of it is a registry
    of encodings looked up by name, and [encode] on an encoding; both can
    raise.  The registry is a parameter of everything below. *)

Record Encoding : Type := mkEncoding { encode : string -> result (list Z) }.

Definition Tiktoken : Type := string -> result Encoding.

(** ** The Python objects [_count_token] computes with

    The argument of [sum] is built from a generator expression and an [int];
    what [+] and [sum] do depends on the types of their operands. *)

Inductive pyobj : Type :=
  | PyInt (z : Z)
  | PyGenerator (items : list (result Z)).

(** [a + b] *)
Definition py_add (a b : pyobj) : result pyobj :=
  match a, b with
  | PyInt x, PyInt y => Ok (PyInt (x + y))
  | PyGenerator _, PyInt _ =>
      Raise (TypeError "unsupported operand type(s) for +: 'generator' and 'int'")
  | PyInt _, PyGenerator _ =>
      Raise (TypeError "unsupported operand type(s) for +: 'int' and 'generator'")
  | PyGenerator _, PyGenerator _ =>
      Raise (TypeError "unsupported operand type(s) for +: 'generator' and 'generator'")
  end.

(** Consuming a generator: the items are computed one by one, the first one
    that raises ends the iteration. *)
Fixpoint sum_items (acc : Z) (items : list (result Z)) : result Z :=
  match items with
  | [] => Ok acc
  | Ok n :: rest => sum_items (acc + n) rest
  | Raise e :: _ => Raise e
  end.

(** [sum(x)] *)
Definition py_sum (x : pyobj) : result Z :=
  match x with
  | PyGenerator items => sum_items 0 items
  | PyInt _ => Raise (TypeError "'int' object is not iterable")
  end.

(** ** The store, the trace and the monad of method bodies

    A Python [list] is an object: variables hold references to it, and
    [pop] changes it in place for every holder of the reference.  The store
    maps a reference (an index) to the current contents of the list object.
    Objects are never reclaimed.  The trace records what a caller or the
    outside world can observe of a run, in order. *)

Definition loc : Type := nat.

Record Client : Type := mkClient { client_api_key : string; client_timeout : Z }.

Inductive event : Type :=
  | EvSleep (seconds : Z)
  | EvYield (chunk : string)
  | EvClient (c : Client)
  | EvCreate (c : Client) (messages : list Message) (model : string).

Record state : Type := mkState {
  heap : list (list Message);
  trace : list event
}.

Definition set_heap (s : state) (h : list (list Message)) : state :=
  {| heap := h; trace := trace s |}.

Definition log (s : state) (e : event) : state :=
  {| heap := heap s; trace := trace s ++ [e] |}.

(** A run from a state gives a result (a value or a raised exception) and a
    final state; [None] stands for "the model gives no run": the fuel of a
    loop was exhausted or a reference was dangling.  The theorems on the
    methods show that neither happens. *)
Definition M (A : Type) : Type := state -> option (result A * state).

Definition ret {A} (a : A) : M A := fun s => Some (Ok a, s).
Definition raise {A} (e : exn) : M A := fun s => Some (Raise e, s).
Definition lift {A} (r : result A) : M A := fun s => Some (r, s).
Definition no_run {A} : M A := fun _ => None.

Definition bind {A B} (m : M A) (k : A -> M B) : M B :=
  fun s =>
    match m s with
    | Some (Ok a, s') => k a s'
    | Some (Raise e, s') => Some (Raise e, s')
    | None => None
    end.

Declare Scope M_scope.
Delimit Scope M_scope with M.
Notation "x <- m ;; k" := (bind m (fun x => k))
  (at level 100, m at next level, right associativity) : M_scope.
Notation "m ;;; k" := (bind m (fun _ => k))
  (at level 100, right associativity) : M_scope.

(** A new list object with the given contents. *)
Definition alloc (l : list Message) : M loc :=
  fun s => Some (Ok (length (heap s)), set_heap s (heap s ++ [l])).

(** The current contents of a list object. *)
Definition load (r : loc) : M (list Message) :=
  fun s =>
    match heap s !! r with
    | Some l => Some (Ok l, s)
    | None => None
    end.

(** [r.pop(0)] *)
Definition pop0 (r : loc) : M Message :=
  fun s =>
    match heap s !! r with
    | Some (x :: l) => Some (Ok x, set_heap s (<[r := l]> (heap s)))
    | Some [] => Some (Raise (IndexError "pop from empty list"), s)
    | None => None
    end.

(** [len(r)] *)
Definition len (r : loc) : M Z :=
  (l <- load r ;; ret (Z.of_nat (length l)))%M.

Definition emit (e : event) : M unit :=
  fun s => Some (Ok tt, log s e).

(** [time.sleep(n)] and [yield x] as seen from outside. *)
Definition sleep (seconds : Z) : M unit := emit (EvSleep seconds).
Definition yield (chunk : string) : M unit := emit (EvYield chunk).

(** The chunks a consumer received, in order. *)
Fixpoint yielded (tr : list event) : list string :=
  match tr with
  | [] => []
  | EvYield c :: tr' => c :: yielded tr'
  | _ :: tr' => yielded tr'
  end.

(** The requests sent to the provider, in order. *)
Fixpoint network_calls (tr : list event) : list (list Message * string) :=
  match tr with
  | [] => []
  | EvCreate _ msgs mdl :: tr' => (msgs, mdl) :: network_calls tr'
  | _ :: tr' => network_calls tr'
  end.

(** The clients constructed, in order. *)
Fixpoint clients (tr : list event) : list Client :=
  match tr with
  | [] => []
  | EvClient c :: tr' => c :: clients tr'
  | _ :: tr' => clients tr'
  end.

(** A generator function returns a generator object without running its
    body; the body runs when the generator is consumed.  A generator is a
    suspended method body, and consuming it to the end runs the body. *)
Definition Generator : Type := M unit.
Definition consume (g : Generator) (s : state) : option (result unit * state) := g s.

(** ** The provider's streaming interface

    [openai] is an external library.  A streamed response is a sequence of
    units that ends normally or with a transport failure. *)

Record ChoiceDelta : Type := mkDelta { delta_content : option string }.
Record Choice : Type := mkChoice { delta : option ChoiceDelta }.
Record ChatCompletionChunk : Type := mkChunk { choices : list Choice }.

Inductive stream : Type :=
  | SEnd
  | SChunk (c : ChatCompletionChunk) (rest : stream)
  | SFail (e : exn).

Definition Provider : Type := Client -> list Message -> string -> stream.

(** [openai.Client(api_key=..., timeout=...)]: the constructor of the library
    either gives a client or raises (it rejects some keys). *)
Definition ClientConstructor : Type := string -> Z -> result Client.

(** What the code reads from its surroundings. *)
Record World : Type := mkWorld {
  settings : Settings;
  tiktoken : Tiktoken;
  openai_Client : ClientConstructor;
  openai_create : Provider
}.

(** Truth value of an optional object and of a string. *)
Definition truthy_str (s : string) : bool :=
  match s with
  | EmptyString => false
  | String _ _ => true
  end.

Definition delta_text (d : option ChoiceDelta) : option string :=
  match d with
  | Some d' =>
      match delta_content d' with
      | Some c => if truthy_str c then Some c else None
      | None => None
      end
  | None => None
  end.

(** ** [class LLMAdapter]

    The base class.  Its [make_response] has no [yield]: it is an ordinary
    method, and calling it raises. *)

Module LLMAdapter.
Definition make_response (context : string) (history : loc) (prompt : string)
  : result Generator :=
  Raise NotImplementedError.
End LLMAdapter.

(** ** [class Stub(LLMAdapter)] *)

Module Stub.
(** The arguments are not used. *)
Definition make_response (context : string) (history : loc) (prompt : string)
  : Generator :=
  (sleep 1 ;;;
   yield "Hello " ;;;
   sleep 2 ;;;
   yield "World!")%M.
End Stub.

(** ** [class OpenAI(LLMAdapter)] *)

Module OpenAI.

(** An instance: the surroundings it reads, and the counting method its
    other methods reach through [self._count_token].  [new] below builds the
    instance the class itself describes. *)
Record self : Type := mkSelf {
  world : World;
  count_token_method : list Message -> result Z
}.

(** [max_tokens] (a property) *)
Definition max_tokens (this : self) : Z :=
  getattr (OPENAI_MAX_TOKENS (settings (world this))) 8000.

(** [model] (a property) *)
Definition model (this : self) : string :=
  getattr (OPENAI_MODEL (settings (world this))) "gpt-4.1-mini".

(** [api_key] (a property): the value of the setting if [hasattr] finds it,
    [ValueError] otherwise. *)
Definition api_key (this : self) : result string :=
  match OPENAI_KEY (settings (world this)) with
  | Some k => Ok k
  | None => Raise (ValueError "Missing OPENAI_KEY in settings!")
  end.

Definition tokens_per_message : Z := 3.
Definition priming : Z := 3.

(** One item of the generator expression
    [(tokens_per_message + len(encoding.encode(m["content"])) for m in messages)]. *)
Definition message_cost (encoding : Encoding) (m : Message) : result Z :=
  (try toks <- encode encoding (content m);
   Ok (tokens_per_message + Z.of_nat (length toks)))%result.

(** [_count_token]: in [sum((... for m in messages) + priming)] the closing
    parenthesis of the generator expression comes before [+ priming]. *)
Definition _count_token (tk : Tiktoken) (messages : list Message) : result Z :=
  (try encoding <- tk "cli100k_base";
   try arg <- py_add (PyGenerator (map (message_cost encoding) messages))
                     (PyInt priming);
   py_sum arg)%result.

(** [OpenAI()] *)
Definition new (w : World) : self :=
  {| world := w; count_token_method := _count_token (tiktoken w) |}.

(** The [while] loop of [_truncate_history].  An iteration that does not
    leave the loop removes one element of [trimmed_history], so the loop is
    run with more fuel than that list has elements. *)
Fixpoint truncate_loop (this : self) (fuel : nat)
    (trimmed_history messages : loc) : M loc :=
  match fuel with
  | O => no_run
  | S fuel' =>
      (msgs <- load messages ;;
       n <- lift (count_token_method this msgs) ;;
       if (n >=? max_tokens this)%Z then
         k <- len trimmed_history ;;
         if (k =? 0)%Z then alloc []
         else
           pop0 trimmed_history ;;;
           truncate_loop this fuel' trimmed_history messages
       else ret trimmed_history)%M
  end.

(** [_truncate_history].  The temporaries of
    [[system_msg] + trimmed_history + [user_msg]] are not kept in the store:
    only the list bound to [messages] is. *)
Definition _truncate_history (this : self)
    (context : string) (history : loc) (prompt : string) : M loc :=
  let system_msg := mkMessage system context in
  let user_msg := mkMessage user prompt in
  (h <- load history ;;
   trimmed_history <- alloc h ;;
   t <- load trimmed_history ;;
   messages <- alloc ([system_msg] ++ t ++ [user_msg]) ;;
   truncate_loop this (S (length t)) trimmed_history messages)%M.

(** The [for] loop of [make_response] over the streamed units. *)
Fixpoint for_each_chunk (str : stream) : M unit :=
  match str with
  | SEnd => ret tt
  | SFail e => raise e
  | SChunk choice rest =>
      match choices choice !! 0%nat with
      | None => raise (IndexError "list index out of range")
      | Some c =>
          ((match delta_text (delta c) with
            | Some text => yield text
            | None => ret tt
            end) ;;;
           for_each_chunk rest)%M
      end
  end.

(** [make_response] (a generator function) *)
Definition make_response (this : self)
    (context : string) (history : loc) (prompt : string) : Generator :=
  (key <- lift (api_key this) ;;
   client <- lift (openai_Client (world this) key (60 * 4)) ;;
   emit (EvClient client) ;;;
   let system_msg := mkMessage system context in
   let user_msg := mkMessage user prompt in
   trimmed_history <- _truncate_history this context history prompt ;;
   t <- load trimmed_history ;;
   let messages := [system_msg] ++ t ++ [user_msg] in
   emit (EvCreate client messages (model this)) ;;;
   for_each_chunk (openai_create (world this) client messages (model this)))%M.

End OpenAI.

(** ** [get_model] *)

Inductive Adapter : Type :=
  | AStub
  | AOpenAI (this : OpenAI.self).

(** [None] is Python's [None], returned when the function body ends without
    a [return]. *)
Definition get_model (w : World) : option Adapter :=
  let model := getattr (LLM_MODEL (settings w)) "Stub" in
  if String.eqb model "Stub" then Some AStub
  else if String.eqb model "OpenAI" then Some (AOpenAI (OpenAI.new w))
  else None.

(** [adapter.make_response(context, history, prompt)] *)
Definition LLMAdapter_make_response (a : Adapter)
    (context : string) (history : loc) (prompt : string) : Generator :=
  match a with
  | AStub => Stub.make_response context history prompt
  | AOpenAI this => OpenAI.make_response this context history prompt
  end.

(** The counting rule as the documentation of [_count_token] describes it:
    per-message overhead plus tokenized length of the content, summed over the
    messages, plus the priming constant. *)
Definition count_spec (encoding : Encoding) (messages : list Message) : result Z :=
  (try s <- sum_items 0 (map (OpenAI.message_cost encoding) messages);
   Ok (s + OpenAI.priming))%result.

(** The text of a streamed unit, if it has one that is not empty. *)
Definition unit_text (c : ChatCompletionChunk) : option string :=
  match choices c !! 0%nat with
  | Some ch => delta_text (delta ch)
  | None => None
  end.

(** The chunks the loop yields on a stream, and how the loop ends. *)
Fixpoint stream_yields (str : stream) : list string :=
  match str with
  | SEnd | SFail _ => []
  | SChunk c rest =>
      match choices c !! 0%nat with
      | None => []
      | Some ch =>
          match delta_text (delta ch) with
          | Some text => text :: stream_yields rest
          | None => stream_yields rest
          end
      end
  end.

Fixpoint stream_result (str : stream) : result unit :=
  match str with
  | SEnd => Ok tt
  | SFail e => Raise e
  | SChunk c rest =>
      match choices c !! 0%nat with
      | None => Raise (IndexError "list index out of range")
      | Some _ => stream_result rest
      end
  end.

(** A stream that delivers the given units and then ends. *)
Definition stream_of (units : list ChatCompletionChunk) : stream :=
  foldr SChunk SEnd units.

(** What the loop of [_truncate_history] does from a state where
    [trimmed_history] and [messages] are distinct objects: the list bound to
    [messages] is counted, and the count alone decides the three outcomes. *)
Definition truncate_outcome (this : OpenAI.self) (trimmed_history : loc)
    (msgs : list Message) (s : state) : option (result loc * state) :=
  match OpenAI.count_token_method this msgs with
  | Raise e => Some (Raise e, s)
  | Ok n =>
      if (n >=? OpenAI.max_tokens this)%Z then
        Some (Ok (length (heap s)),
              set_heap s (<[trimmed_history := []]> (heap s) ++ [[]]))
      else Some (Ok trimmed_history, s)
  end.

(** The candidate list [[system_msg] + history + [user_msg]] for a history
    with the given contents. *)
Definition candidate (context : string) (l : list Message) (prompt : string)
  : list Message :=
  mkMessage system context :: l ++ [mkMessage user prompt].

(** Sample data used in the examples.  [enc_chars] gives one token per
    character; [tk_known] is a registry that knows every name, [tk_unknown]
    one that knows none, [tk_library] one that knows the names the library
    ships.  [sample_Client] rejects the empty key. *)
Definition enc_chars : Encoding :=
  {| encode := fun s => Ok (map (fun _ => 0) (String.list_ascii_of_string s)) |}.
Definition tk_known : Tiktoken := fun _ => Ok enc_chars.
Definition tk_unknown : Tiktoken :=
  fun name => Raise (ValueError (String.append "Unknown encoding " name)).
Definition tk_library : Tiktoken :=
  fun name =>
    if existsb (String.eqb name)
         ["gpt2"; "r50k_base"; "p50k_base"; "p50k_edit"; "cl100k_base";
          "o200k_base"]%string
    then Ok enc_chars
    else Raise (ValueError (String.append "Unknown encoding " name)).
Definition sample_Client : ClientConstructor :=
  fun key timeout =>
    if String.eqb key ""
    then Raise (OpenAIError "The api_key client option must be set")
    else Ok (mkClient key timeout).

Definition text_unit (text : string) : ChatCompletionChunk :=
  mkChunk [mkChoice (Some (mkDelta (Some text)))].

(** Five units, the third with an empty delta. *)
Definition five_units : list ChatCompletionChunk :=
  [text_unit "The "; text_unit "answer "; text_unit ""; text_unit "is ";
   text_unit "42."].

Definition sample_world (selection key : option string) : World :=
  {| settings := {| LLM_MODEL := selection; OPENAI_MAX_TOKENS := None;
                    OPENAI_MODEL := None; OPENAI_KEY := key |};
     tiktoken := tk_library;
     openai_Client := sample_Client;
     openai_create := fun _ _ _ => stream_of five_units |}.

Definition m_old : Message := mkMessage user "What is a monad?".
Definition m_new : Message := mkMessage assistant "A monoid in a category.".

(** An instance whose counting method has been replaced by one that returns:
    one token per message.  It exercises the paths of the loop that the
    instance of the class does not reach. *)
Definition per_message_count (messages : list Message) : result Z :=
  Ok (Z.of_nat (length messages)).
Definition double_instance (w : World) : OpenAI.self :=
  {| OpenAI.world := w; OpenAI.count_token_method := per_message_count |}.
Definition small_budget_world : World :=
  {| settings := {| LLM_MODEL := Some "OpenAI"%string; OPENAI_MAX_TOKENS := Some 4;
                    OPENAI_MODEL := None; OPENAI_KEY := Some "sk-test"%string |};
     tiktoken := tk_library;
     openai_Client := sample_Client;
     openai_create := fun _ _ _ => stream_of five_units |}.

(** A store with one list object, the caller's history. *)
Definition store_of (l : list Message) : state := {| heap := [l]; trace := [] |}.

(** The given units followed by the rest of a stream. *)
Definition stream_then (units : list ChatCompletionChunk) (rest : stream) : stream :=
  foldr SChunk rest units.

(** The text carried by the first choice of a unit, empty when the unit has
    no choice, no delta or no content. *)
Definition unit_content (c : ChatCompletionChunk) : string :=
  match choices c !! 0%nat with
  | Some ch =>
      match delta ch with
      | Some d =>
          match delta_content d with
          | Some text => text
          | None => EmptyString
          end
      | None => EmptyString
      end
  | None => EmptyString
  end.

(** The texts of the units that are present and not empty, in the order of
    the units. *)
Definition present_texts (units : list ChatCompletionChunk) : list string :=
  filter (fun text => text <> EmptyString) (map unit_content units).

(** [[""].join(chunks)]: what a consumer obtains by concatenating chunks. *)
Definition join (chunks : list string) : string :=
  foldr String.append EmptyString chunks.

(** An instance whose counting method answers the same count for every
    list. *)
Definition constant_instance (w : World) (n : Z) : OpenAI.self :=
  {| OpenAI.world := w; OpenAI.count_token_method := fun _ => Ok n |}.

(** * Properties *)

(** ** Traces *)

Lemma yielded_app (t1 t2 : list event) :
  yielded (t1 ++ t2) = yielded t1 ++ yielded t2.
Proof.
  induction t1 as [|e t1 IH]; [reflexivity|].
  destruct e; simpl; rewrite IH; reflexivity.
Qed.

Lemma network_calls_app (t1 t2 : list event) :
  network_calls (t1 ++ t2) = network_calls t1 ++ network_calls t2.
Proof.
  induction t1 as [|e t1 IH]; [reflexivity|].
  destruct e; simpl; rewrite IH; reflexivity.
Qed.


Lemma network_calls_map_yield (cs : list string) :
  network_calls (map EvYield cs) = [].
Proof. induction cs as [|c cs IH]; simpl; [reflexivity|exact IH]. Qed.

(** ** The counting method *)

Lemma py_add_generator_int (items : list (result Z)) (z : Z) :
  py_add (PyGenerator items) (PyInt z) =
  Raise (TypeError "unsupported operand type(s) for +: 'generator' and 'int'").
Proof. reflexivity. Qed.

(** What [_count_token] evaluates to: the lookup of the encoding fails, or the
    addition of the generator and [priming] does. *)
Lemma count_token_run (tk : Tiktoken) (messages : list Message) :
  OpenAI._count_token tk messages =
  match tk "cli100k_base" with
  | Ok _ =>
      Raise (TypeError "unsupported operand type(s) for +: 'generator' and 'int'")
  | Raise e => Raise e
  end.
Proof.
  unfold OpenAI._count_token, rbind.
  destruct (tk "cli100k_base"); reflexivity.
Qed.

Lemma count_token_raise (tk : Tiktoken) (messages : list Message) :
  exists e, OpenAI._count_token tk messages = Raise e.
Proof.
  rewrite count_token_run. destruct (tk "cli100k_base"); eauto.
Qed.

(** The documented counting rule, for comparison. *)
Lemma sum_items_acc (acc : Z) (items : list (result Z)) :
  sum_items acc items = (try s <- sum_items 0 items; Ok (acc + s))%result.
Proof.
  revert acc. induction items as [|[n|e] items IH]; intros acc; simpl.
  - f_equal. lia.
  - rewrite IH, (IH (0 + n)). destruct (sum_items 0 items); simpl; [|reflexivity].
    f_equal. lia.
  - reflexivity.
Qed.

Lemma count_spec_nil (encoding : Encoding) : count_spec encoding [] = Ok 3.
Proof. reflexivity. Qed.

Lemma count_spec_cons (encoding : Encoding) (m : Message) (ms : list Message) :
  count_spec encoding (m :: ms) =
  (try toks <- encode encoding (content m);
   try rest <- count_spec encoding ms;
   Ok (3 + Z.of_nat (length toks) + rest))%result.
Proof.
  unfold count_spec, OpenAI.message_cost; simpl.
  destruct (encode encoding (content m)) as [toks|e]; simpl; [|reflexivity].
  rewrite sum_items_acc.
  destruct (sum_items 0 _) as [s|e]; simpl; [|reflexivity].
  unfold OpenAI.tokens_per_message, OpenAI.priming. f_equal. lia.
Qed.

Lemma count_spec_nonneg (encoding : Encoding) (ms : list Message) (n : Z) :
  count_spec encoding ms = Ok n -> 3 <= n.
Proof.
  revert n. induction ms as [|m ms IH]; intros n.
  - rewrite count_spec_nil. intros [= <-]. lia.
  - rewrite count_spec_cons.
    destruct (encode encoding (content m)) as [toks|e]; simpl; [|discriminate].
    destruct (count_spec encoding ms) as [r|e]; simpl; [|discriminate].
    intros [= <-]. specialize (IH r eq_refl). lia.
Qed.

(** ** The truncation loop, for any counting method *)

Section Truncation.
Variable this : OpenAI.self.

Lemma truncate_loop_run (tl : list Message) :
  forall (fuel : nat) (tr ms : loc) (msgs : list Message) (s : state),
    heap s !! tr = Some tl ->
    heap s !! ms = Some msgs ->
    tr <> ms ->
    (length tl < fuel)%nat ->
    OpenAI.truncate_loop this fuel tr ms s = truncate_outcome this tr msgs s.
Proof.
  induction tl as [|x tl IH]; intros fuel tr ms msgs s Htr Hms Hne Hfuel;
    (destruct fuel as [|fuel]; [lia|]); simpl;
    unfold bind, load, lift, truncate_outcome; rewrite Hms;
    destruct (OpenAI.count_token_method this msgs) as [n|e] eqn:Ec;
    try reflexivity;
    destruct (n >=? OpenAI.max_tokens this)%Z eqn:E; try reflexivity;
    unfold len, bind, load, ret; rewrite Htr.
  - simpl. unfold alloc. rewrite list_insert_id by exact Htr. reflexivity.
  - replace (Z.of_nat (length (x :: tl)) =? 0)%Z
      with false by (symmetry; apply Z.eqb_neq; simpl; lia).
    unfold pop0. rewrite Htr.
    assert (Hlt : (tr < length (heap s))%nat) by (eapply lookup_lt_Some; eauto).
    rewrite (IH fuel tr ms msgs); simpl.
    + unfold truncate_outcome. rewrite Ec, E. simpl.
      rewrite length_insert, list_insert_insert_eq. reflexivity.
    + apply list_lookup_insert_eq, Hlt.
    + rewrite list_lookup_insert_ne; auto.
    + exact Hne.
    + simpl in Hfuel. lia.
Qed.

(** [_truncate_history] from a state where [history] is a list object. *)
Lemma truncate_history_run (context prompt : string) (history : loc)
    (s : state) (l : list Message) :
  heap s !! history = Some l ->
  OpenAI._truncate_history this context history prompt s =
  truncate_outcome this (length (heap s))
    (mkMessage system context :: l ++ [mkMessage user prompt])
    (set_heap s ((heap s ++ [l]) ++
                 [mkMessage system context :: l ++ [mkMessage user prompt]])).
Proof.
  intros Hh. unfold OpenAI._truncate_history, bind, load, alloc.
  rewrite Hh. cbn [heap set_heap trace].
  rewrite lookup_app_r, Nat.sub_diag by lia. cbn [lookup list_lookup].
  unfold set_heap. cbn [heap trace].
  apply (truncate_loop_run l); cbn [heap].
  - rewrite lookup_app_l by (rewrite length_app; simpl; lia).
    rewrite lookup_app_r, Nat.sub_diag by lia. reflexivity.
  - rewrite lookup_app_r, Nat.sub_diag by lia. reflexivity.
  - rewrite length_app. simpl. lia.
  - lia.
Qed.
End Truncation.

(** ** What a call of [_truncate_history] does, for any counting method *)

Section TruncateSpec.
Variable this : OpenAI.self.
Variables (context prompt : string) (history : loc).
Variables (s : state) (l : list Message).
Hypothesis Hhistory : heap s !! history = Some l.

(** The call always has a run.  It leaves the trace and every object of the
    caller as they were.  It raises exactly when the count of the candidate
    list raises; otherwise it returns a list equal to the whole history when
    the count is under the budget, and an empty list when it is not. *)
Lemma truncate_history_spec :
  exists (r : result loc) (s' : state),
    OpenAI._truncate_history this context history prompt s = Some (r, s') /\
    trace s' = trace s /\
    (forall k : nat, (k < length (heap s))%nat -> heap s' !! k = heap s !! k) /\
    match r with
    | Raise e =>
        OpenAI.count_token_method this (candidate context l prompt) = Raise e
    | Ok out =>
        exists n : Z,
          OpenAI.count_token_method this (candidate context l prompt) = Ok n /\
          ((n < OpenAI.max_tokens this /\ heap s' !! out = Some l) \/
           (OpenAI.max_tokens this <= n /\ heap s' !! out = Some []))
    end.
Proof.
  rewrite (truncate_history_run this context prompt history s l Hhistory).
  fold (candidate context l prompt). unfold truncate_outcome.
  destruct (OpenAI.count_token_method this (candidate context l prompt))
    as [n|e] eqn:Ec.
  - destruct (n >=? OpenAI.max_tokens this)%Z eqn:E.
    + do 2 eexists. split; [reflexivity|]. cbn [heap trace set_heap].
      split; [reflexivity|]. split.
      * intros k Hk.
        rewrite lookup_app_l
          by (rewrite length_insert, !length_app; simpl; lia).
        rewrite list_lookup_insert_ne by lia.
        rewrite !lookup_app_l by (rewrite ?length_app; simpl; lia).
        reflexivity.
      * exists n. split; [reflexivity|]. right. split.
        -- apply Z.geb_le in E. lia.
        -- rewrite lookup_app_r by (rewrite length_insert; lia).
           rewrite length_insert, Nat.sub_diag. reflexivity.
    + do 2 eexists. split; [reflexivity|]. cbn [heap trace set_heap].
      split; [reflexivity|]. split.
      * intros k Hk.
        rewrite !lookup_app_l by (rewrite ?length_app; simpl; lia).
        reflexivity.
      * exists n. split; [reflexivity|]. left. split.
        -- rewrite Z.geb_leb in E. apply Z.leb_gt in E. lia.
        -- rewrite lookup_app_l by (rewrite length_app; simpl; lia).
           rewrite lookup_app_r, Nat.sub_diag by lia. reflexivity.
  - do 2 eexists. split; [reflexivity|]. cbn [heap trace set_heap].
    split; [reflexivity|]. split; [|reflexivity].
    intros k Hk.
    rewrite !lookup_app_l by (rewrite ?length_app; simpl; lia).
    reflexivity.
Qed.
End TruncateSpec.

(** ** The streaming loop *)

Lemma for_each_chunk_run (str : stream) (s : state) :
  OpenAI.for_each_chunk str s =
  Some (stream_result str,
        {| heap := heap s; trace := trace s ++ map EvYield (stream_yields str) |}).
Proof.
  revert s. induction str as [|c rest IH|e]; intros s; simpl.
  - unfold ret. rewrite app_nil_r. destruct s; reflexivity.
  - destruct (choices c !! 0%nat) as [ch|].
    + unfold bind. destruct (delta_text (delta ch)) as [text|]; simpl.
      * rewrite IH. simpl. rewrite <- app_assoc. reflexivity.
      * rewrite IH. destruct (stream_result rest); reflexivity.
    + unfold raise. rewrite app_nil_r. destruct s; reflexivity.
  - unfold raise. rewrite app_nil_r. destruct s; reflexivity.
Qed.

Lemma delta_text_nonempty (d : option ChoiceDelta) (text : string) :
  delta_text d = Some text -> text <> EmptyString.
Proof.
  destruct d as [[[c|]]|]; simpl; try discriminate.
  destruct c; simpl; [discriminate|]. intros [= <-]. discriminate.
Qed.

(** On a stream of units that each carry at least one choice, the loop yields
    the non-empty texts of the units, in order, and ends normally. *)
Lemma stream_of_yields (units : list ChatCompletionChunk) :
  Forall (fun c => choices c <> []) units ->
  stream_yields (stream_of units) = omap unit_text units /\
  stream_result (stream_of units) = Ok tt.
Proof.
  induction 1 as [|c units Hc _ [IHy IHr]]; [split; reflexivity|].
  simpl. unfold unit_text.
  destruct (choices c) as [|ch chs] eqn:E; [contradiction|]. simpl.
  split; [|exact IHr].
  destruct (delta_text (delta ch)); rewrite IHy; reflexivity.
Qed.

Lemma stream_yields_nonempty (str : stream) :
  Forall (fun text => text <> EmptyString) (stream_yields str).
Proof.
  induction str as [|c rest IH|e]; simpl; try constructor.
  destruct (choices c !! 0%nat) as [ch|]; [|constructor].
  destruct (delta_text (delta ch)) as [text|] eqn:E; [|exact IH].
  constructor; [|exact IH]. eapply delta_text_nonempty; eauto.
Qed.



(** ** What consuming [OpenAI.make_response] does, for any counting method *)

Lemma make_response_spec (this : OpenAI.self) (context prompt : string)
    (history : loc) (s : state) (l : list Message) :
  heap s !! history = Some l ->
  exists (r : result unit) (s' : state),
    consume (OpenAI.make_response this context history prompt) s = Some (r, s') /\
    (forall k : nat, (k < length (heap s))%nat -> heap s' !! k = heap s !! k) /\
    match OpenAI.api_key this with
    | Raise e => r = Raise e /\ s' = s
    | Ok key =>
        match openai_Client (OpenAI.world this) key 240 with
        | Raise e => r = Raise e /\ s' = s
        | Ok client =>
            match OpenAI.count_token_method this
                    (mkMessage system context :: l ++ [mkMessage user prompt]) with
            | Raise e => r = Raise e /\ trace s' = trace s ++ [EvClient client]
            | Ok n =>
                let kept := if (n >=? OpenAI.max_tokens this)%Z then [] else l in
                let msgs := mkMessage system context :: kept ++ [mkMessage user prompt] in
                let str := openai_create (OpenAI.world this) client msgs (OpenAI.model this) in
                r = stream_result str /\
                trace s' = trace s ++ [EvClient client; EvCreate client msgs (OpenAI.model this)]
                                   ++ map EvYield (stream_yields str)
            end
        end
    end.
Proof.
  intros Hh. unfold consume, OpenAI.make_response, bind, lift.
  destruct (OpenAI.api_key this) as [key|e].
  2:{ exists (Raise e), s. auto. }
  change (60 * 4) with 240.
  destruct (openai_Client (OpenAI.world this) key 240) as [client|e].
  2:{ exists (Raise e), s. auto. }
  unfold emit at 1.
  destruct (truncate_history_spec this context prompt history
              (log s (EvClient client)) l Hh)
    as (r & s1 & Hrun & Htr & Hframe & Hr).
  unfold candidate in Hr. rewrite Hrun. cbn [heap trace log] in Htr, Hframe.
  destruct r as [out|e].
  - destruct Hr as (n & Hn & Hout). rewrite Hn.
    assert (Hkept : heap s1 !! out =
                    Some (if (n >=? OpenAI.max_tokens this)%Z then [] else l)).
    { destruct Hout as [[Hlt Hout]|[Hge Hout]]; rewrite Hout; f_equal.
      - replace (n >=? OpenAI.max_tokens this)%Z with false; [reflexivity|].
        symmetry. rewrite Z.geb_leb. apply Z.leb_gt. lia.
      - replace (n >=? OpenAI.max_tokens this)%Z with true; [reflexivity|].
        symmetry. apply Z.geb_le. lia. }
    unfold load. rewrite Hkept. unfold emit. rewrite for_each_chunk_run.
    do 2 eexists. split; [reflexivity|]. cbn [heap trace log].
    split; [exact Hframe|]. split; [reflexivity|].
    rewrite Htr, <- !app_assoc. reflexivity.
  - rewrite Hr. do 2 eexists. split; [reflexivity|]. auto.
Qed.

(** ** The class as it is written *)

Lemma class_truncate_history_raises (w : World) (context prompt : string)
    (history : loc) (s : state) (l : list Message) :
  heap s !! history = Some l ->
  exists (e : exn) (s' : state),
    OpenAI._truncate_history (OpenAI.new w) context history prompt s
      = Some (Raise e, s') /\
    OpenAI._count_token (tiktoken w)
      (mkMessage system context :: l ++ [mkMessage user prompt]) = Raise e.
Proof.
  intros Hh.
  destruct (truncate_history_spec (OpenAI.new w) context prompt history s l Hh)
    as (r & s' & Hrun & _ & _ & Hr).
  unfold candidate in Hr.
  destruct r as [out|e].
  - destruct Hr as (n & Hn & _). simpl in Hn.
    destruct (count_token_raise (tiktoken w)
                (mkMessage system context :: l ++ [mkMessage user prompt]))
      as [e He].
    congruence.
  - exists e, s'. auto.
Qed.

(** ** The truncation loop with a counting method that returns

    These lemmas say what the loop of [_truncate_history] does for an
    instance whose counting method returns a count.  The instance
    [OpenAI.new w] is not one of them ([count_token_raise]). *)

Section WithCount.
Variable this : OpenAI.self.
Variables (context prompt : string) (history : loc).
Variables (s : state) (l : list Message) (n : Z).
Hypothesis Hhistory : heap s !! history = Some l.
Hypothesis Hcount :
  OpenAI.count_token_method this (candidate context l prompt) = Ok n.

Lemma truncate_history_whole_or_empty :
  exists (out : loc) (s' : state),
    OpenAI._truncate_history this context history prompt s = Some (Ok out, s') /\
    heap s' !! out = Some (if (n >=? OpenAI.max_tokens this)%Z then [] else l).
Proof.
  destruct (truncate_history_spec this context prompt history s l Hhistory)
    as (r & s' & Hrun & _ & _ & Hr).
  fold (candidate context l prompt) in Hr.
  destruct r as [out|e]; [|congruence].
  destruct Hr as (n' & Hn' & Hout).
  assert (n' = n) as -> by congruence.
  exists out, s'. split; [exact Hrun|].
  destruct Hout as [[Hlt ->]|[Hge ->]]; f_equal.
  - replace (n >=? OpenAI.max_tokens this)%Z with false; [reflexivity|].
    symmetry. rewrite Z.geb_leb. apply Z.leb_gt. lia.
  - replace (n >=? OpenAI.max_tokens this)%Z with true; [reflexivity|].
    symmetry. apply Z.geb_le. lia.
Qed.

Lemma truncate_history_fits_or_empty :
  exists (out : loc) (s' : state) (kept : list Message),
    OpenAI._truncate_history this context history prompt s = Some (Ok out, s') /\
    heap s' !! out = Some kept /\
    (kept = [] \/
     exists k : Z,
       OpenAI.count_token_method this (candidate context kept prompt) = Ok k /\
       k < OpenAI.max_tokens this).
Proof.
  destruct truncate_history_whole_or_empty as (out & s' & Hrun & Hout).
  exists out, s'. eexists. split; [exact Hrun|]. split; [exact Hout|].
  destruct (n >=? OpenAI.max_tokens this)%Z eqn:E; [left; reflexivity|].
  right. exists n. split; [exact Hcount|].
  rewrite Z.geb_leb in E. apply Z.leb_gt in E. lia.
Qed.

Lemma truncate_history_suffix :
  exists (out : loc) (s' : state) (kept : list Message),
    OpenAI._truncate_history this context history prompt s = Some (Ok out, s') /\
    heap s' !! out = Some kept /\
    kept `suffix_of` l.
Proof.
  destruct truncate_history_whole_or_empty as (out & s' & Hrun & Hout).
  exists out, s'. eexists. split; [exact Hrun|]. split; [exact Hout|].
  destruct (n >=? OpenAI.max_tokens this)%Z; [apply suffix_nil|reflexivity].
Qed.

(** Truncating the returned list again returns a list with the same contents,
    when the counting method returns on the second candidate list too. *)
Lemma truncate_history_idempotent (out : loc) (s' : state)
    (kept : list Message) (n2 : Z) :
  OpenAI._truncate_history this context history prompt s = Some (Ok out, s') ->
  heap s' !! out = Some kept ->
  OpenAI.count_token_method this (candidate context kept prompt) = Ok n2 ->
  exists (out2 : loc) (s2 : state),
    OpenAI._truncate_history this context out prompt s' = Some (Ok out2, s2) /\
    heap s2 !! out2 = Some kept.
Proof.
  intros Hrun Hout Hcount2.
  destruct truncate_history_whole_or_empty as (out' & s'' & Hrun' & Hout').
  rewrite Hrun in Hrun'. injection Hrun' as <- <-.
  rewrite Hout in Hout'. injection Hout' as Hkept.
  destruct (truncate_history_spec this context prompt out s' kept Hout)
    as (r & s2 & Hrun2 & _ & _ & Hr).
  fold (candidate context kept prompt) in Hr.
  destruct r as [out2|e]; [|congruence].
  destruct Hr as (n2' & Hn2' & Hout2).
  assert (n2' = n2) as -> by congruence.
  exists out2, s2. split; [exact Hrun2|].
  destruct Hout2 as [[_ ->]|[Hge ->]]; [reflexivity|].
  destruct (n >=? OpenAI.max_tokens this)%Z eqn:E; [congruence|].
  exfalso. subst kept.
  assert (n2 = n) by congruence. subst n2.
  rewrite Z.geb_leb in E. apply Z.leb_gt in E. lia.
Qed.

End WithCount.

(** Examples with the replaced counting method.  Over the budget, the loop
    empties its own copy (object 1), returns a new empty list (object 3) and
    leaves the caller's list (object 0) and the candidate list (object 2) as
    they were. *)
Example truncate_history_drains_the_copy :
  OpenAI._truncate_history (double_instance small_budget_world)
    "Be brief." 0%nat "hi" (store_of [m_old; m_new])
  = Some (Ok 3%nat,
          {| heap := [[m_old; m_new]; []; candidate "Be brief." [m_old; m_new] "hi"; []];
             trace := [] |}).
Proof. reflexivity. Qed.

Example make_response_four_chunks :
  exists s' : state,
    consume (OpenAI.make_response
               (double_instance (sample_world (Some "OpenAI") (Some "sk-test")))
               "Be brief." 0%nat "hi")
            (store_of [m_old; m_new]) = Some (Ok tt, s') /\
    yielded (trace s') = ["The "; "answer "; "is "; "42."]%string.
Proof. eexists. split; vm_compute; reflexivity. Qed.

(** * The claims *)

(** C2.  The claim: [_count_token] returns the sum over the messages of
    (3 + tokenized length of the content), plus 3, without exception.
    The code: on every list of messages, and whatever the tokenizer library
    answers, [_count_token] raises.  If the encoding name is known to the
    library, the addition of the generator expression and [priming] raises
    [TypeError] before [sum] is called; if it is not, the lookup raises. *)
Theorem count_token_raises_on_every_input :
  forall (tk : Tiktoken) (messages : list Message),
    raises (OpenAI._count_token tk messages) /\
    OpenAI._count_token tk messages =
    match tk "cli100k_base" with
    | Ok _ =>
        Raise (TypeError "unsupported operand type(s) for +: 'generator' and 'int'")
    | Raise e => Raise e
    end.
Proof.
  intros tk messages. split.
  - apply count_token_raise.
  - apply count_token_run.
Qed.

(** C1.  The claim: the history returned by [_truncate_history] fits strictly
    under the budget when re-assembled, or is empty.  The code: for every
    world, context, prompt and history, the call returns no history at all; the
    first evaluation of the loop condition raises the exception of
    [_count_token]. *)
Theorem truncate_history_raises_on_first_test :
  forall (w : World) (context prompt : string) (l : list Message),
    exists (e : exn) (s' : state),
      OpenAI._truncate_history (OpenAI.new w) context 0%nat prompt (store_of l)
        = Some (Raise e, s') /\
      OpenAI._count_token (tiktoken w) (candidate context l prompt) = Raise e.
Proof.
  intros w context prompt l.
  apply (class_truncate_history_raises w context prompt 0%nat (store_of l) l).
  reflexivity.
Qed.

(** C3.  The claim: the sequence returned by [_truncate_history] is a
    contiguous suffix of the input history.  The code: on a history of two
    messages (as on any other) no sequence is returned. *)
Theorem truncate_history_returns_no_sequence :
  forall (w : World) (context prompt : string) (out : loc) (s' : state),
    OpenAI._truncate_history (OpenAI.new w) context 0%nat prompt
      (store_of [m_old; m_new]) <> Some (Ok out, s').
Proof.
  intros w context prompt out s' Hrun.
  destruct (class_truncate_history_raises w context prompt 0%nat
              (store_of [m_old; m_new]) [m_old; m_new] eq_refl)
    as (e & s'' & Hraise & _).
  congruence.
Qed.

(** C4.  The claim: [_truncate_history] returns either a copy of the whole
    input history or the empty sequence.  The code: for every world, context,
    prompt and history, the call returns neither. *)
Theorem truncate_history_neither_whole_nor_empty :
  forall (w : World) (context prompt : string) (l : list Message),
    ~ exists (out : loc) (s' : state) (kept : list Message),
        OpenAI._truncate_history (OpenAI.new w) context 0%nat prompt (store_of l)
          = Some (Ok out, s') /\
        heap s' !! out = Some kept /\
        (kept = l \/ kept = []).
Proof.
  intros w context prompt l (out & s' & kept & Hrun & _).
  destruct (class_truncate_history_raises w context prompt 0%nat
              (store_of l) l eq_refl)
    as (e & s'' & Hraise & _).
  congruence.
Qed.





(** The five sample units, one of them with an empty delta: four chunks, in
    order. *)
Example stream_yields_five_units :
  stream_yields (stream_of five_units) = ["The "; "answer "; "is "; "42."]%string /\
  present_texts five_units = ["The "; "answer "; "is "; "42."]%string.
Proof. split; reflexivity. Qed.

(** C5.  Without [OPENAI_KEY] in the settings, consuming [make_response]
    raises [ValueError] and leaves the state as it was: no client has been
    constructed, no request sent, no chunk yielded.  This holds for every
    instance, context, history, prompt and state. *)
Theorem make_response_missing_key :
  forall (this : OpenAI.self) (context prompt : string) (history : loc)
         (s : state),
    OPENAI_KEY (settings (OpenAI.world this)) = None ->
    consume (OpenAI.make_response this context history prompt) s
      = Some (Raise (ValueError "Missing OPENAI_KEY in settings!"), s).
Proof.
  intros this context prompt history s Hkey.
  unfold consume, OpenAI.make_response, bind, lift, OpenAI.api_key.
  rewrite Hkey. reflexivity.
Qed.

Lemma make_response_missing_key_witness :
  consume (OpenAI.make_response (OpenAI.new (sample_world (Some "OpenAI") None))
             "Be brief." 0%nat "hi")
          (store_of [m_old; m_new])
    = Some (Raise (ValueError "Missing OPENAI_KEY in settings!"),
            store_of [m_old; m_new]).
Proof.
  apply (make_response_missing_key
           (OpenAI.new (sample_world (Some "OpenAI") None))).
  reflexivity.
Defined.

(** C7.  [get_model] gives a [Stub] for the setting ["Stub"], an [OpenAI] for
    ["OpenAI"], a [Stub] when the setting is absent, and [None] (no adapter,
    no exception) for every other value. *)
Theorem get_model_resolution :
  forall (budget : option Z) (mdl key : option string) (tk : Tiktoken)
         (constructor : ClientConstructor) (provider : Provider),
    let w := fun selection =>
      {| settings := {| LLM_MODEL := selection; OPENAI_MAX_TOKENS := budget;
                        OPENAI_MODEL := mdl; OPENAI_KEY := key |};
         tiktoken := tk; openai_Client := constructor;
         openai_create := provider |} in
    get_model (w (Some "Stub"%string)) = Some AStub /\
    get_model (w (Some "OpenAI"%string))
      = Some (AOpenAI (OpenAI.new (w (Some "OpenAI"%string)))) /\
    get_model (w None) = Some AStub /\
    (forall v : string,
       v <> "Stub"%string -> v <> "OpenAI"%string -> get_model (w (Some v)) = None).
Proof.
  intros budget mdl key tk constructor provider w.
  repeat split; try reflexivity.
  intros v Hstub Hopenai. unfold get_model, w; simpl.
  apply String.eqb_neq in Hstub, Hopenai.
  rewrite Hstub, Hopenai. reflexivity.
Qed.

Lemma get_model_resolution_witness :
  get_model (sample_world (Some "Llama"%string) None) = None.
Proof.
  apply (proj2 (proj2 (proj2
           (get_model_resolution None None None tk_library sample_Client
              (fun _ _ _ => stream_of five_units))))
           "Llama"%string); discriminate.
Defined.

(** C8.  Whatever its arguments and the state, consuming [Stub.make_response]
    ends normally, touches no list object, and yields ["Hello "] then
    ["World!"], with a pause of one second before the first and of two seconds
    before the second. *)
Theorem stub_make_response_fixed :
  forall (context prompt : string) (history : loc) (s : state),
    consume (Stub.make_response context history prompt) s
      = Some (Ok tt,
              {| heap := heap s;
                 trace := trace s ++ [EvSleep 1; EvYield "Hello "; EvSleep 2;
                                      EvYield "World!"] |}) /\
    yielded [EvSleep 1; EvYield "Hello "; EvSleep 2; EvYield "World!"]
      = ["Hello "; "World!"]%string.
Proof.
  intros context prompt history s. split; [|reflexivity].
  unfold consume, Stub.make_response, bind, sleep, yield, emit, log; simpl.
  rewrite <- !app_assoc. reflexivity.
Qed.

(** C10.  For every instance (so for [OpenAI.new w]), context, prompt and
    state in which [history] is a list object with contents [l]: a call of
    [_truncate_history] and a full consumption of [make_response] each have a
    run, and whether it returns or raises, [history] has contents [l] in the
    final state. *)
Theorem history_not_mutated :
  forall (this : OpenAI.self) (context prompt : string) (history : loc)
         (s : state) (l : list Message),
    heap s !! history = Some l ->
    (exists (r : result loc) (s' : state),
       OpenAI._truncate_history this context history prompt s = Some (r, s') /\
       heap s' !! history = Some l) /\
    (exists (r : result unit) (s' : state),
       consume (OpenAI.make_response this context history prompt) s = Some (r, s') /\
       heap s' !! history = Some l).
Proof.
  intros this context prompt history s l Hh.
  assert (Hlt : (history < length (heap s))%nat) by (eapply lookup_lt_Some; eauto).
  split.
  - destruct (truncate_history_spec this context prompt history s l Hh)
      as (r & s' & Hrun & _ & Hframe & _).
    exists r, s'. split; [exact Hrun|]. rewrite Hframe; auto.
  - destruct (make_response_spec this context prompt history s l Hh)
      as (r & s' & Hrun & Hframe & _).
    exists r, s'. split; [exact Hrun|]. rewrite Hframe; auto.
Qed.

Lemma history_not_mutated_witness :
  let this := OpenAI.new (sample_world (Some "OpenAI") (Some "sk-test")) in
  (exists (r : result loc) (s' : state),
     OpenAI._truncate_history this "Be brief." 0%nat "hi" (store_of [m_old; m_new])
       = Some (r, s') /\
     heap s' !! 0%nat = Some [m_old; m_new]) /\
  (exists (r : result unit) (s' : state),
     consume (OpenAI.make_response this "Be brief." 0%nat "hi")
       (store_of [m_old; m_new]) = Some (r, s') /\
     heap s' !! 0%nat = Some [m_old; m_new]).
Proof.
  apply (history_not_mutated
           (OpenAI.new (sample_world (Some "OpenAI") (Some "sk-test")))
           "Be brief." "hi" 0%nat (store_of [m_old; m_new]) [m_old; m_new]).
  reflexivity.
Defined.

(** * Further properties of the code *)

Lemma clients_app (t1 t2 : list event) :
  clients (t1 ++ t2) = clients t1 ++ clients t2.
Proof.
  induction t1 as [|e t1 IH]; [reflexivity|].
  destruct e; simpl; rewrite IH; reflexivity.
Qed.

Lemma clients_map_yield (cs : list string) : clients (map EvYield cs) = [].
Proof. induction cs as [|c cs IH]; simpl; [reflexivity|exact IH]. Qed.

(** ** Resolution followed by generation *)

(** With [LLM_MODEL] absent or equal to ["Stub"], whatever the other settings
    (no credential is needed): [get_model] gives an adapter, and consuming its
    [make_response] ends normally, yields ["Hello "] then ["World!"], builds
    no client, sends no request and leaves every list object as it was. *)
Theorem default_selection_generates_stub_output :
  forall (w : World) (context prompt : string) (history : loc) (s : state),
    LLM_MODEL (settings w) = None \/ LLM_MODEL (settings w) = Some "Stub"%string ->
    exists (a : Adapter) (s' : state),
      get_model w = Some a /\
      consume (LLMAdapter_make_response a context history prompt) s = Some (Ok tt, s') /\
      heap s' = heap s /\
      yielded (trace s') = yielded (trace s) ++ ["Hello "; "World!"]%string /\
      clients (trace s') = clients (trace s) /\
      network_calls (trace s') = network_calls (trace s).
Proof.
  intros w context prompt history s Hsel.
  assert (Hget : get_model w = Some AStub).
  { unfold get_model. destruct Hsel as [-> | ->]; reflexivity. }
  exists AStub. eexists. split; [exact Hget|]. split; [reflexivity|].
  cbn [heap trace log]. split; [reflexivity|].
  rewrite !yielded_app, !clients_app, !network_calls_app; simpl.
  rewrite !app_nil_r, <- !app_assoc. repeat split; reflexivity.
Qed.

Lemma default_selection_generates_stub_output_witness :
  exists (a : Adapter) (s' : state),
    get_model (sample_world None None) = Some a /\
    consume (LLMAdapter_make_response a "Be brief." 0%nat "hi")
      (store_of [m_old]) = Some (Ok tt, s') /\
    heap s' = heap (store_of [m_old]) /\
    yielded (trace s') = yielded (trace (store_of [m_old])) ++ ["Hello "; "World!"]%string /\
    clients (trace s') = clients (trace (store_of [m_old])) /\
    network_calls (trace s') = network_calls (trace (store_of [m_old])).
Proof.
  apply (default_selection_generates_stub_output (sample_world None None)).
  left. reflexivity.
Defined.

(** The credential is checked when the response is consumed, not when the
    adapter is resolved: with [LLM_MODEL] equal to ["OpenAI"] and no
    [OPENAI_KEY], [get_model] gives an adapter without raising, and consuming
    its [make_response] raises [ValueError] in the unchanged state. *)
Theorem credential_checked_on_consumption :
  forall (w : World) (context prompt : string) (history : loc) (s : state),
    LLM_MODEL (settings w) = Some "OpenAI"%string ->
    OPENAI_KEY (settings w) = None ->
    exists a : Adapter,
      get_model w = Some a /\
      consume (LLMAdapter_make_response a context history prompt) s
        = Some (Raise (ValueError "Missing OPENAI_KEY in settings!"), s).
Proof.
  intros w context prompt history s Hsel Hkey.
  exists (AOpenAI (OpenAI.new w)). split.
  - unfold get_model. rewrite Hsel. reflexivity.
  - unfold LLMAdapter_make_response, consume, OpenAI.make_response, bind, lift,
      OpenAI.api_key. simpl. rewrite Hkey. reflexivity.
Qed.

Lemma credential_checked_on_consumption_witness :
  exists a : Adapter,
    get_model (sample_world (Some "OpenAI"%string) None) = Some a /\
    consume (LLMAdapter_make_response a "Be brief." 0%nat "hi") (store_of [m_old])
      = Some (Raise (ValueError "Missing OPENAI_KEY in settings!"), store_of [m_old]).
Proof.
  apply (credential_checked_on_consumption
           (sample_world (Some "OpenAI"%string) None));
    reflexivity.
Defined.

(** ** The streaming loop of [make_response] *)

Lemma stream_then_run (units : list ChatCompletionChunk) (rest : stream) :
  Forall (fun c => choices c <> []) units ->
  stream_yields (stream_then units rest) = omap unit_text units ++ stream_yields rest /\
  stream_result (stream_then units rest) = stream_result rest.
Proof.
  induction 1 as [|c units Hc _ [IHy IHr]]; [split; reflexivity|].
  simpl. unfold unit_text.
  destruct (choices c) as [|ch chs] eqn:E; [contradiction|]. simpl.
  split; [|exact IHr].
  destruct (delta_text (delta ch)); rewrite IHy; reflexivity.
Qed.

Lemma unit_text_content (c : ChatCompletionChunk) :
  match unit_text c with
  | Some text => unit_content c = text
  | None => unit_content c = EmptyString
  end.
Proof.
  unfold unit_text, unit_content.
  destruct (choices c !! 0%nat) as [ch|]; [|reflexivity].
  destruct (delta ch) as [[[text|]]|]; simpl; try reflexivity.
  destruct text; reflexivity.
Qed.

Lemma join_unit_text (units : list ChatCompletionChunk) :
  join (omap unit_text units) = join (map unit_content units).
Proof.
  induction units as [|c units IH]; [reflexivity|].
  change (omap unit_text (c :: units))
    with (match unit_text c with
          | Some text => text :: omap unit_text units
          | None => omap unit_text units
          end).
  change (join (map unit_content (c :: units)))
    with (String.append (unit_content c) (join (map unit_content units))).
  pose proof (unit_text_content c) as Hc.
  destruct (unit_text c) as [text|]; rewrite Hc, <- IH; reflexivity.
Qed.

(** For every stream, well-formed or not, and every state: the loop has a
    run, it changes no list object, it adds only [yield] events to the trace,
    and no chunk it yields is the empty string. *)
Theorem streaming_loop_yields_only_nonempty_text :
  forall (str : stream) (s : state),
    exists (r : result unit) (s' : state) (chunks : list string),
      OpenAI.for_each_chunk str s = Some (r, s') /\
      heap s' = heap s /\
      trace s' = trace s ++ map EvYield chunks /\
      Forall (fun chunk => chunk <> EmptyString) chunks.
Proof.
  intros str s. rewrite for_each_chunk_run.
  do 3 eexists. split; [reflexivity|]. cbn [heap trace].
  split; [reflexivity|]. split; [reflexivity|].
  apply stream_yields_nonempty.
Qed.

(** The filter on empty deltas loses no text: on a stream of units that each
    carry at least one choice and that ends normally, the concatenation of the
    yielded chunks is the concatenation of the texts of all the units. *)
Theorem streaming_loop_loses_no_text :
  forall (units : list ChatCompletionChunk) (s : state),
    Forall (fun c => choices c <> []) units ->
    exists chunks : list string,
      OpenAI.for_each_chunk (stream_of units) s
        = Some (Ok tt, {| heap := heap s; trace := trace s ++ map EvYield chunks |}) /\
      join chunks = join (map unit_content units).
Proof.
  intros units s Hwf. rewrite for_each_chunk_run.
  destruct (stream_of_yields units Hwf) as [-> ->].
  eexists. split; [reflexivity|]. apply join_unit_text.
Qed.

Lemma streaming_loop_loses_no_text_witness :
  exists chunks : list string,
    OpenAI.for_each_chunk (stream_of five_units) (store_of [])
      = Some (Ok tt, {| heap := heap (store_of []);
                        trace := trace (store_of []) ++ map EvYield chunks |}) /\
    join chunks = join (map unit_content five_units).
Proof.
  apply (streaming_loop_loses_no_text five_units (store_of [])).
  repeat constructor; discriminate.
Defined.

(** A unit without any choice ends the loop with [IndexError]
    ([choice.choices[0]]): the chunks of the units before it have been
    yielded, and nothing that follows it in the stream is read. *)
Theorem streaming_loop_unit_without_choice :
  forall (units : list ChatCompletionChunk) (rest : stream) (s : state),
    Forall (fun c => choices c <> []) units ->
    OpenAI.for_each_chunk (stream_then units (SChunk (mkChunk []) rest)) s
      = Some (Raise (IndexError "list index out of range"),
              {| heap := heap s;
                 trace := trace s ++ map EvYield (omap unit_text units) |}).
Proof.
  intros units rest s Hwf. rewrite for_each_chunk_run.
  destruct (stream_then_run units (SChunk (mkChunk []) rest) Hwf) as [-> ->].
  simpl. rewrite app_nil_r. reflexivity.
Qed.

Lemma streaming_loop_unit_without_choice_witness :
  OpenAI.for_each_chunk
    (stream_then [text_unit "The "; text_unit ""]
       (SChunk (mkChunk []) (stream_of [text_unit "answer"])))
    (store_of [])
  = Some (Raise (IndexError "list index out of range"),
          {| heap := [[]]; trace := [EvYield "The "] |}).
Proof.
  apply (streaming_loop_unit_without_choice
           [text_unit "The "; text_unit ""] (stream_of [text_unit "answer"])
           (store_of [])).
  repeat constructor; discriminate.
Defined.

(** A failure of the transport in the middle of the stream is raised to the
    consumer as it is, after the chunks of the units received before it have
    been yielded: nothing is retried, suppressed or retracted. *)
Theorem streaming_loop_transport_failure :
  forall (units : list ChatCompletionChunk) (e : exn) (s : state),
    Forall (fun c => choices c <> []) units ->
    OpenAI.for_each_chunk (stream_then units (SFail e)) s
      = Some (Raise e,
              {| heap := heap s;
                 trace := trace s ++ map EvYield (omap unit_text units) |}).
Proof.
  intros units e s Hwf. rewrite for_each_chunk_run.
  destruct (stream_then_run units (SFail e) Hwf) as [-> ->].
  simpl. rewrite app_nil_r. reflexivity.
Qed.

Lemma streaming_loop_transport_failure_witness :
  OpenAI.for_each_chunk
    (stream_then [text_unit "The "; text_unit "answer "]
       (SFail (ProviderError "connection reset")))
    (store_of [])
  = Some (Raise (ProviderError "connection reset"),
          {| heap := [[]]; trace := [EvYield "The "; EvYield "answer "] |}).
Proof.
  apply (streaming_loop_transport_failure
           [text_unit "The "; text_unit "answer "]
           (ProviderError "connection reset") (store_of [])).
  repeat constructor; discriminate.
Defined.

(** Only the first choice of a unit is read: two streams whose units agree on
    their first choice (or on having none) and that continue alike give the
    same run, whatever further choices the units carry. *)
Theorem streaming_loop_reads_first_choice_only :
  forall (units units' : list ChatCompletionChunk) (rest : stream) (s : state),
    Forall2 (fun c c' => choices c !! 0%nat = choices c' !! 0%nat) units units' ->
    OpenAI.for_each_chunk (stream_then units rest) s
      = OpenAI.for_each_chunk (stream_then units' rest) s.
Proof.
  intros units units' rest s Hagree. rewrite !for_each_chunk_run.
  assert (H : stream_yields (stream_then units rest)
              = stream_yields (stream_then units' rest) /\
              stream_result (stream_then units rest)
              = stream_result (stream_then units' rest)).
  { induction Hagree as [|c c' units units' Hc _ [IHy IHr]]; [split; reflexivity|].
    simpl. rewrite <- Hc. destruct (choices c !! 0%nat) as [ch|]; [|split; reflexivity].
    rewrite IHy, IHr. split; reflexivity. }
  destruct H as [-> ->]. reflexivity.
Qed.

Lemma streaming_loop_reads_first_choice_only_witness :
  OpenAI.for_each_chunk
    (stream_then
       [mkChunk [mkChoice (Some (mkDelta (Some "yes"%string)));
                 mkChoice (Some (mkDelta (Some "no"%string)))]] SEnd)
    (store_of [])
  = OpenAI.for_each_chunk (stream_then [text_unit "yes"] SEnd) (store_of []).
Proof.
  apply (streaming_loop_reads_first_choice_only
           [mkChunk [mkChoice (Some (mkDelta (Some "yes"%string)));
                     mkChoice (Some (mkDelta (Some "no"%string)))]]
           [text_unit "yes"] SEnd (store_of [])).
  repeat constructor.
Defined.

(** ** [_truncate_history] and [make_response] for any counting method

    The methods reach the counting method through [self]; the properties
    below hold for every instance, whatever that method does. *)

(** The loop consults the counting method on one list only, the candidate
    built before the loop: two instances with the same budget whose counting
    methods agree on that list give the same run, however they differ on
    shorter lists. *)
Theorem truncate_history_counts_only_the_candidate :
  forall (this1 this2 : OpenAI.self) (context prompt : string) (history : loc)
         (s : state) (l : list Message),
    heap s !! history = Some l ->
    OpenAI.count_token_method this1 (candidate context l prompt)
      = OpenAI.count_token_method this2 (candidate context l prompt) ->
    OpenAI.max_tokens this1 = OpenAI.max_tokens this2 ->
    OpenAI._truncate_history this1 context history prompt s
      = OpenAI._truncate_history this2 context history prompt s.
Proof.
  intros this1 this2 context prompt history s l Hh Hcount Hmax.
  rewrite (truncate_history_run this1 context prompt history s l Hh).
  rewrite (truncate_history_run this2 context prompt history s l Hh).
  unfold truncate_outcome. fold (candidate context l prompt).
  rewrite Hcount, Hmax. reflexivity.
Qed.

Lemma truncate_history_counts_only_the_candidate_witness :
  per_message_count (candidate "Be brief." [m_new] "hi") = Ok 3 /\
  OpenAI._truncate_history (double_instance small_budget_world)
    "Be brief." 0%nat "hi" (store_of [m_old; m_new])
  = OpenAI._truncate_history (constant_instance small_budget_world 4)
      "Be brief." 0%nat "hi" (store_of [m_old; m_new]).
Proof.
  split; [reflexivity|].
  apply (truncate_history_counts_only_the_candidate
           (double_instance small_budget_world)
           (constant_instance small_budget_world 4)
           "Be brief." "hi" 0%nat (store_of [m_old; m_new]) [m_old; m_new]);
    reflexivity.
Defined.

(** All or nothing: when the counting method returns [n] for the candidate
    list, the call returns a list object created by the call itself (so not the
    caller's), holding the whole history if [n] is under the budget and
    nothing otherwise, even where dropping only the oldest messages would
    have been enough. *)
Theorem truncate_history_all_or_nothing :
  forall (this : OpenAI.self) (context prompt : string) (history : loc)
         (s : state) (l : list Message) (n : Z),
    heap s !! history = Some l ->
    OpenAI.count_token_method this (candidate context l prompt) = Ok n ->
    exists (out : loc) (s' : state),
      OpenAI._truncate_history this context history prompt s = Some (Ok out, s') /\
      (length (heap s) <= out)%nat /\
      heap s' !! out = Some (if (n <? OpenAI.max_tokens this)%Z then l else []).
Proof.
  intros this context prompt history s l n Hh Hcount.
  rewrite (truncate_history_run this context prompt history s l Hh).
  unfold truncate_outcome. fold (candidate context l prompt). rewrite Hcount.
  rewrite Z.geb_leb, Z.ltb_antisym.
  destruct (OpenAI.max_tokens this <=? n)%Z; cbn [negb];
    do 2 eexists; (split; [reflexivity|]); cbn [heap set_heap].
  - split; [rewrite !length_app; simpl; lia|].
    rewrite lookup_app_r by (rewrite length_insert; lia).
    rewrite length_insert, Nat.sub_diag. reflexivity.
  - split; [lia|].
    rewrite lookup_app_l by (rewrite length_app; simpl; lia).
    rewrite lookup_app_r, Nat.sub_diag by lia. reflexivity.
Qed.

Lemma truncate_history_all_or_nothing_witness :
  per_message_count (candidate "Be brief." [m_new] "hi") = Ok 3 /\
  3 < OpenAI.max_tokens (double_instance small_budget_world) /\
  exists (out : loc) (s' : state),
    OpenAI._truncate_history (double_instance small_budget_world)
      "Be brief." 0%nat "hi" (store_of [m_old; m_new]) = Some (Ok out, s') /\
    (length (heap (store_of [m_old; m_new])) <= out)%nat /\
    heap s' !! out
      = Some (if (4 <? OpenAI.max_tokens (double_instance small_budget_world))%Z
              then [m_old; m_new] else []).
Proof.
  split; [reflexivity|]. split; [reflexivity|].
  apply (truncate_history_all_or_nothing (double_instance small_budget_world)
           "Be brief." "hi" 0%nat (store_of [m_old; m_new]) [m_old; m_new] 4);
    reflexivity.
Defined.

(** With a credential, a client constructor that accepts it and a counting
    method that returns [n] for the candidate list, consuming [make_response]
    builds the client, sends one request (the system message with the
    context, the kept history, all of it or none, the user message with the
    prompt, for the configured model or ["gpt-4.1-mini"]) and then runs the
    streaming loop on the stream the provider answers with.  No object of the
    caller is changed on the way, and the finished run has built exactly that
    client and sent exactly that request. *)
Theorem make_response_sends_one_request :
  forall (this : OpenAI.self) (context prompt : string) (history : loc)
         (s : state) (l : list Message) (key : string) (client : Client) (n : Z),
    heap s !! history = Some l ->
    OPENAI_KEY (settings (OpenAI.world this)) = Some key ->
    openai_Client (OpenAI.world this) key 240 = Ok client ->
    OpenAI.count_token_method this (candidate context l prompt) = Ok n ->
    let mdl := getattr (OPENAI_MODEL (settings (OpenAI.world this))) "gpt-4.1-mini"%string in
    let msgs := candidate context (if (n <? OpenAI.max_tokens this)%Z then l else []) prompt in
    (exists s1 : state,
       consume (OpenAI.make_response this context history prompt) s
         = OpenAI.for_each_chunk (openai_create (OpenAI.world this) client msgs mdl) s1 /\
       trace s1 = trace s ++ [EvClient client; EvCreate client msgs mdl] /\
       (forall k : nat, (k < length (heap s))%nat -> heap s1 !! k = heap s !! k)) /\
    (exists (r : result unit) (s' : state),
       consume (OpenAI.make_response this context history prompt) s = Some (r, s') /\
       clients (trace s') = clients (trace s) ++ [client] /\
       network_calls (trace s') = network_calls (trace s) ++ [(msgs, mdl)]).
Proof.
  intros this context prompt history s l key client n Hh Hkey Hctor Hcount mdl msgs.
  assert (Hloop : exists s1 : state,
            consume (OpenAI.make_response this context history prompt) s
              = OpenAI.for_each_chunk
                  (openai_create (OpenAI.world this) client msgs mdl) s1 /\
            trace s1 = trace s ++ [EvClient client; EvCreate client msgs mdl] /\
            (forall k : nat, (k < length (heap s))%nat -> heap s1 !! k = heap s !! k)).
  { unfold consume, OpenAI.make_response, bind, lift, OpenAI.api_key.
    rewrite Hkey. change (60 * 4) with 240. rewrite Hctor. unfold emit at 1.
    destruct (truncate_history_spec this context prompt history
                (log s (EvClient client)) l Hh)
      as (r & s0 & Hrun & Htr & Hframe & Hr).
    rewrite Hrun. cbn [heap trace log] in Htr, Hframe.
    destruct r as [out|e]; [|congruence].
    destruct Hr as (n' & Hn' & Hout).
    assert (n' = n) as -> by congruence.
    assert (Hkept : heap s0 !! out =
                    Some (if (n <? OpenAI.max_tokens this)%Z then l else [])).
    { destruct Hout as [[Hlt ->]|[Hge ->]]; f_equal.
      - replace (n <? OpenAI.max_tokens this)%Z with true; [reflexivity|].
        symmetry. apply Z.ltb_lt. lia.
      - replace (n <? OpenAI.max_tokens this)%Z with false; [reflexivity|].
        symmetry. apply Z.ltb_ge. lia. }
    unfold load. rewrite Hkept. unfold emit.
    eexists. split; [reflexivity|]. cbn [heap trace log].
    split; [|exact Hframe].
    rewrite Htr, <- app_assoc. reflexivity. }
  split; [exact Hloop|].
  destruct Hloop as (s1 & Hrun & Htr & _).
  rewrite Hrun, for_each_chunk_run.
  do 2 eexists. split; [reflexivity|]. cbn [trace].
  rewrite Htr, !clients_app, !network_calls_app.
  rewrite clients_map_yield, network_calls_map_yield. simpl.
  rewrite ?app_nil_r. split; reflexivity.
Qed.

Lemma make_response_sends_one_request_witness :
  let this := double_instance (sample_world (Some "OpenAI"%string) (Some "sk-test"%string)) in
  let client := mkClient "sk-test" 240 in
  let s := store_of [m_old; m_new] in
  let msgs := candidate "Be brief."
                (if (4 <? OpenAI.max_tokens this)%Z then [m_old; m_new] else []) "hi" in
  (exists s1 : state,
     consume (OpenAI.make_response this "Be brief." 0%nat "hi") s
       = OpenAI.for_each_chunk
           (openai_create (OpenAI.world this) client msgs "gpt-4.1-mini"%string) s1 /\
     trace s1 = trace s ++ [EvClient client; EvCreate client msgs "gpt-4.1-mini"%string] /\
     (forall k : nat, (k < length (heap s))%nat -> heap s1 !! k = heap s !! k)) /\
  (exists (r : result unit) (s' : state),
     consume (OpenAI.make_response this "Be brief." 0%nat "hi") s = Some (r, s') /\
     clients (trace s') = clients (trace s) ++ [client] /\
     network_calls (trace s')
       = network_calls (trace s) ++ [(msgs, "gpt-4.1-mini"%string)]).
Proof.
  apply (make_response_sends_one_request
           (double_instance (sample_world (Some "OpenAI"%string) (Some "sk-test"%string)))
           "Be brief." "hi" 0%nat (store_of [m_old; m_new]) [m_old; m_new]
           "sk-test"%string (mkClient "sk-test" 240) 4);
    reflexivity.
Defined.

(** With a credential that the client constructor accepts and a counting
    method that raises on the candidate list, consuming [make_response]
    builds the client and then ends with that same exception: no request is
    sent and no chunk is yielded. *)
Theorem make_response_count_failure_sends_nothing :
  forall (this : OpenAI.self) (context prompt : string) (history : loc)
         (s : state) (l : list Message) (key : string) (client : Client) (e : exn),
    heap s !! history = Some l ->
    OPENAI_KEY (settings (OpenAI.world this)) = Some key ->
    openai_Client (OpenAI.world this) key 240 = Ok client ->
    OpenAI.count_token_method this (candidate context l prompt) = Raise e ->
    exists s' : state,
      consume (OpenAI.make_response this context history prompt) s
        = Some (Raise e, s') /\
      clients (trace s') = clients (trace s) ++ [client] /\
      network_calls (trace s') = network_calls (trace s) /\
      yielded (trace s') = yielded (trace s).
Proof.
  intros this context prompt history s l key client e Hh Hkey Hctor Hcount.
  destruct (make_response_spec this context prompt history s l Hh)
    as (r & s' & Hrun & _ & Hr).
  unfold OpenAI.api_key in Hr. rewrite Hkey, Hctor in Hr.
  fold (candidate context l prompt) in Hr. rewrite Hcount in Hr.
  destruct Hr as [-> Htr].
  exists s'. split; [exact Hrun|].
  rewrite Htr, clients_app, network_calls_app, yielded_app. simpl.
  rewrite ?app_nil_r. repeat split; reflexivity.
Qed.

Lemma make_response_count_failure_sends_nothing_witness :
  exists s' : state,
    consume (OpenAI.make_response
               (OpenAI.new (sample_world (Some "OpenAI"%string) (Some "sk-test"%string)))
               "Be brief." 0%nat "hi") (store_of [m_old])
      = Some (Raise (ValueError "Unknown encoding cli100k_base"), s') /\
    clients (trace s') = clients (trace (store_of [m_old])) ++ [mkClient "sk-test" 240] /\
    network_calls (trace s') = network_calls (trace (store_of [m_old])) /\
    yielded (trace s') = yielded (trace (store_of [m_old])).
Proof.
  apply (make_response_count_failure_sends_nothing
           (OpenAI.new (sample_world (Some "OpenAI"%string) (Some "sk-test"%string)))
           "Be brief." "hi" 0%nat (store_of [m_old]) [m_old] "sk-test"%string
           (mkClient "sk-test" 240));
    reflexivity.
Defined.

(** With a credential that the client constructor rejects, consuming
    [make_response] ends with the exception of the constructor in the
    unchanged state: the history has not been copied or counted, no client
    exists, no request is sent and no chunk is yielded. *)
Theorem make_response_constructor_failure :
  forall (this : OpenAI.self) (context prompt : string) (history : loc)
         (s : state) (key : string) (e : exn),
    OPENAI_KEY (settings (OpenAI.world this)) = Some key ->
    openai_Client (OpenAI.world this) key 240 = Raise e ->
    consume (OpenAI.make_response this context history prompt) s = Some (Raise e, s).
Proof.
  intros this context prompt history s key e Hkey Hctor.
  unfold consume, OpenAI.make_response, bind, lift, OpenAI.api_key.
  rewrite Hkey. change (60 * 4) with 240. rewrite Hctor. reflexivity.
Qed.

Lemma make_response_constructor_failure_witness :
  consume (OpenAI.make_response
             (OpenAI.new (sample_world (Some "OpenAI"%string) (Some ""%string)))
             "Be brief." 0%nat "hi") (store_of [m_old])
    = Some (Raise (OpenAIError "The api_key client option must be set"),
            store_of [m_old]).
Proof.
  apply (make_response_constructor_failure
           (OpenAI.new (sample_world (Some "OpenAI"%string) (Some ""%string)))
           "Be brief." "hi" 0%nat (store_of [m_old]) ""%string);
    reflexivity.
Defined.
